(** * Tuya BLE select platform: mapping table, resolver, option adapter, setup

    A shallow embedding of [custom_components/tuya_ble/select.py].

    Python dictionaries are finite maps ([gmap]), Python lists are lists,
    the value returned by [current_option] is a tagged Python object, and
    the effects of [select_option] (the datapoint collection of the device
    and the tasks handed to the event loop) are threaded through a small
    state-and-exception monad. *)

From stdpp Require Import base option list gmap strings.
From Stdlib Require Import ZArith Lia.

Local Open Scope string_scope.
Local Open Scope list_scope.
Local Open Scope Z_scope.

(** ** Python values, exceptions and the list and dict primitives used *)

Module Py.

(** The exceptions the list primitives below can raise. *)
Inductive exn : Set :=
| IndexError
| ValueError.

(** The outcome of evaluating an expression: a value or a raised
    exception. *)
Inductive result (A : Type) : Type :=
| Ok (a : A)
| Raise (e : exn).
Global Arguments Ok {A} a.
Global Arguments Raise {A} e.

(** The objects [current_option] can hand back: [None], a [str] or an
    [int].  Python keeps the three apart ([9 == "9"] is false). *)
Inductive object : Set :=
| None_
| Str (s : string)
| Int (z : Z).

Global Instance object_eq_dec : EqDecision object.
Proof. solve_decision. Defined.

(** [len(l)] as a Python integer. *)
Definition len {A} (l : list A) : Z := Z.of_nat (length l).

(** [x in l] for a list. *)
Definition contains `{EqDecision A} (x : A) (l : list A) : bool :=
  bool_decide (x ∈ l).

(** [l.index(x)]: the position of the first element equal to [x];
    [ValueError] when there is none. *)
Fixpoint index_from `{EqDecision A} (x : A) (l : list A) (i : Z)
  : result Z :=
  match l with
  | [] => Raise ValueError
  | y :: l' => if decide (y = x) then Ok i else index_from x l' (i + 1)
  end.

Definition index `{EqDecision A} (l : list A) (x : A) : result Z :=
  index_from x l 0.

(** [l[i]] for an integer [i]: negative positions count from the end,
    anything outside [-len(l) <= i < len(l)] raises [IndexError]. *)
Definition getitem {A} (l : list A) (i : Z) : result A :=
  let j := if i <? 0 then i + len l else i in
  if (0 <=? j) && (j <? len l) then
    match l !! Z.to_nat j with
    | Some x => Ok x
    | None => Raise IndexError
    end
  else Raise IndexError.

(** A dict display [{k1: v1, k2: v2, ...}]: the items are stored from
    left to right, a later item replaces an earlier one with its key. *)
Definition dict `{Countable K} {V} (items : list (K * V)) : gmap K V :=
  foldl (λ d kv, <[kv.1 := kv.2]> d) ∅ items.

(** [dict.fromkeys(keys, v)]: every key bound to the same object [v]. *)
Definition fromkeys `{Countable K} {V} (keys : list K) (v : V)
  : gmap K V :=
  dict ((λ k, (k, v)) <$> keys).

(** A dict display made of unpackings [{**d1, **d2, ...}]: the dicts are
    merged from left to right, a later one wins on a shared key. *)
Definition unpack `{Countable K} {V} (ds : list (gmap K V)) : gmap K V :=
  foldl (λ acc d, d ∪ acc) ∅ ds.

End Py.

(** ** Data model *)

(** [homeassistant.helpers.entity.EntityCategory]. *)
Inductive EntityCategory : Set :=
| CONFIG
| DIAGNOSTIC.

(** [SelectEntityDescription], with the fields this module sets.  The
    defaults are those of the host platform's entity description: no icon,
    no category, enabled in the registry. *)
Record SelectEntityDescription : Set := {
  key : string;
  icon : option string;
  entity_category : option EntityCategory;
  entity_registry_enabled_default : bool;
  options : list string
}.

(** The coroutine [datapoint.set_value(value)], not yet run: it names the
    cell it will write and the integer it will write there. *)
Inductive Coroutine : Set :=
| set_value_coro (id : Z) (value : Z).

(** An instance of the datapoint type tags, for the closed examples at the
    end: the kinds of value a datapoint of the protocol can hold. *)
Module Concrete.

Inductive TuyaBLEDataPointType : Set :=
| DT_RAW
| DT_BOOL
| DT_VALUE
| DT_STRING
| DT_ENUM
| DT_BITMAP.

Global Instance TuyaBLEDataPointType_eq_dec :
  EqDecision TuyaBLEDataPointType.
Proof. solve_decision. Defined.

End Concrete.

Section select.

(** The type tag of a datapoint is declared in [tuya_ble.py]; this module
    names one member of it, [DT_ENUM], and compares tags for equality. *)
Context {TuyaBLEDataPointType : Type}
  {type_eq_dec : EqDecision TuyaBLEDataPointType}.
Variable DT_ENUM : TuyaBLEDataPointType.

(** The two Fingerbot mode strings come from [const.py] and the two
    temperature units from the host platform's [UnitOfTemperature]; the
    table below only places them in option lists. *)
Variables FINGERBOT_MODE_PUSH FINGERBOT_MODE_SWITCH : string.
Variables CELSIUS FAHRENHEIT : string.

(** [TuyaBLESelectMapping]: one binding of a datapoint id to an option
    list. *)
Record TuyaBLESelectMapping : Type := {
  dp_id : Z;
  description : SelectEntityDescription;
  force_add : bool;
  dp_type : option TuyaBLEDataPointType
}.

(** [TuyaBLESelectMapping(dp_id=..., description=...)]: the dataclass
    defaults [force_add = True] and [dp_type = None]. *)
Definition TuyaBLESelectMapping_ (dp_id : Z)
  (description : SelectEntityDescription) : TuyaBLESelectMapping :=
  {| dp_id := dp_id; description := description;
     force_add := true; dp_type := None |}.

(** [TemperatureUnitDescription(options=..., ...)]. *)
Definition TemperatureUnitDescription (options : list string)
  (entity_registry_enabled_default : bool) : SelectEntityDescription :=
  {| key := "temperature_unit";
     icon := Some "mdi:thermometer";
     entity_category := Some CONFIG;
     entity_registry_enabled_default := entity_registry_enabled_default;
     options := options |}.

(** [TuyaBLEFingerbotModeMapping(dp_id=...)]. *)
Definition TuyaBLEFingerbotModeMapping (dp_id : Z) : TuyaBLESelectMapping :=
  TuyaBLESelectMapping_ dp_id
    {| key := "fingerbot_mode";
       icon := None;
       entity_category := Some CONFIG;
       entity_registry_enabled_default := true;
       options := [FINGERBOT_MODE_PUSH; FINGERBOT_MODE_SWITCH] |}.

(** [TuyaBLECategorySelectMapping]: the product table of a category and
    its default list (the field [mapping] of the dataclass), both [None]
    unless given. *)
Record TuyaBLECategorySelectMapping : Type := {
  products : option (gmap string (list TuyaBLESelectMapping));
  category_mapping : option (list TuyaBLESelectMapping)
}.

(** The static table [mapping]. *)
Definition mapping : gmap string TuyaBLECategorySelectMapping :=
  Py.dict [
    ("co2bj",
     {| products := Some (Py.dict [
          ("59s19z5m",
           [ TuyaBLESelectMapping_ 101
               (TemperatureUnitDescription [CELSIUS; FAHRENHEIT] true) ])
        ]);
        category_mapping := None |});
    ("ms",
     {| products := Some (Py.dict [
          ("ludzroix",
           [ TuyaBLESelectMapping_ 31
               {| key := "beep_volume";
                  icon := None;
                  entity_category := Some CONFIG;
                  entity_registry_enabled_default := true;
                  options := ["mute"; "low"; "normal"; "high"] |} ])
        ]);
        category_mapping := None |});
    ("szjqr",
     {| products := Some (Py.unpack [
          Py.fromkeys ["3yqdo5yt"; "xhf790if"]
            [ TuyaBLEFingerbotModeMapping 2 ];
          Py.fromkeys ["blliqpsj"; "yiihr7zh"]
            [ TuyaBLEFingerbotModeMapping 8 ];
          Py.fromkeys ["ltak7e1p"; "y6kttvd6"; "yrnk7mnn"]
            [ TuyaBLEFingerbotModeMapping 8 ]
        ]);
        category_mapping := None |});
    ("wsdcg",
     {| products := Some (Py.dict [
          ("ojzlzzsw",
           [ TuyaBLESelectMapping_ 9
               (TemperatureUnitDescription [CELSIUS; FAHRENHEIT] false) ])
        ]);
        category_mapping := None |});
    ("sfkzq",
     {| products := Some (Py.dict [
          ("1fcnd8xk",
           [ TuyaBLESelectMapping_ 10
               {| key := "beep_volume";
                  icon := None;
                  entity_category := Some CONFIG;
                  entity_registry_enabled_default := true;
                  options := ["cancel"; "24h"; "48h"; "72h"] |} ])
        ]);
        category_mapping := None |})
  ].

(** ** The device driver, as far as this module uses it *)

(** Modelled from the spec: a datapoint is the driver's object for one
    cell of the device; [tuya_ble.py], which declares it, is not part of
    the sources at hand.  It carries its id, its type tag and "a current
    integer value". *)
Record TuyaBLEDataPoint : Type := {
  datapoint_id : Z;
  datapoint_type : TuyaBLEDataPointType;
  datapoint_value : Z
}.

(** Modelled from the spec: the "keyed collection of datapoints" of a
    device, an "opaque key-value cell" per id: the type tag and the value
    cached for each id the device has reported. *)
Definition TuyaBLEDataPoints : Type := gmap Z (TuyaBLEDataPointType * Z).

(** Modelled from the spec: [datapoints[id]], the collection's [get(id)]:
    the datapoint stored under [id], [None] when the device has none. *)
Definition datapoints_getitem (datapoints : TuyaBLEDataPoints) (id : Z)
  : option TuyaBLEDataPoint :=
  match datapoints !! id with
  | Some (type, value) =>
      Some {| datapoint_id := id; datapoint_type := type;
              datapoint_value := value |}
  | None => None
  end.

(** Modelled from the spec: [has_id(id, type)]: "the device already
    reports a datapoint with matching id (and matching type, if
    specified)". *)
Definition has_id (datapoints : TuyaBLEDataPoints) (id : Z)
  (type : option TuyaBLEDataPointType) : bool :=
  match datapoints !! id with
  | Some (t, _) =>
      match type with
      | None => true
      | Some type => bool_decide (t = type)
      end
  | None => false
  end.

(** Modelled from the spec: truth value of a datapoint object in
    [if datapoint:]: a datapoint that is there counts as true, only
    [None] as false. *)
Definition datapoint_bool (datapoint : TuyaBLEDataPoint) : bool := true.

(** [TuyaBLEDevice], with the three attributes this module reads. *)
Record TuyaBLEDevice : Type := {
  category : string;
  product_id : string;
  datapoints : TuyaBLEDataPoints
}.

(** What [select_option] can change: the datapoint collection of the
    device the entity belongs to, and the tasks given to
    [hass.create_task], oldest first. *)
Record State : Type := {
  device_datapoints : TuyaBLEDataPoints;
  hass_tasks : list Coroutine
}.

(** A computation that reads and updates the [State] and may raise. *)
Definition M (A : Type) : Type := State → Py.result (A * State).

#[local] Instance M_ret : MRet M := λ A a st, Py.Ok (a, st).

#[local] Instance M_bind : MBind M := λ A B k m st,
  match m st with
  | Py.Ok (a, st') => k a st'
  | Py.Raise e => Py.Raise e
  end.

Definition lift {A} (r : Py.result A) : M A :=
  λ st,
    match r with
    | Py.Ok a => Py.Ok (a, st)
    | Py.Raise e => Py.Raise e
    end.

(** Modelled from the spec: [get_or_create(id, type, default) ->
    datapoint]: the datapoint stored under [id] if there is one, else a
    new one of the given type holding the default, stored under [id]. *)
Definition get_or_create (id : Z) (type : TuyaBLEDataPointType)
  (value : Z) : M TuyaBLEDataPoint :=
  λ st,
    match datapoints_getitem (device_datapoints st) id with
    | Some datapoint => Py.Ok (datapoint, st)
    | None =>
        Py.Ok ({| datapoint_id := id; datapoint_type := type;
                  datapoint_value := value |},
               {| device_datapoints :=
                    <[id := (type, value)]> (device_datapoints st);
                  hass_tasks := hass_tasks st |})
    end.

(** The collection after [get_or_create(id, type, value)]: unchanged when
    [id] is there, extended by a cell of that type and value when not. *)
Definition after_get_or_create (dps : TuyaBLEDataPoints) (id : Z)
  (type : TuyaBLEDataPointType) (value : Z) : TuyaBLEDataPoints :=
  match dps !! id with
  | Some _ => dps
  | None => <[id := (type, value)]> dps
  end.

(** Modelled from the spec: [datapoint.set_value(value)], "an
    asynchronous set": calling it only builds the coroutine. *)
Definition set_value (datapoint : TuyaBLEDataPoint) (value : Z)
  : Coroutine :=
  set_value_coro (datapoint_id datapoint) value.

(** [hass.create_task(coro)]: the coroutine is scheduled, not awaited. *)
Definition create_task (coro : Coroutine) : M unit :=
  λ st,
    Py.Ok (tt, {| device_datapoints := device_datapoints st;
                  hass_tasks := hass_tasks st ++ [coro] |}).

(** ** The mapping resolver *)

(** [get_mapping_by_device(device)].  The module-level table it reads is
    its first argument here. *)
Definition get_mapping_by_device
  (mapping : gmap string TuyaBLECategorySelectMapping)
  (device : TuyaBLEDevice) : list TuyaBLESelectMapping :=
  match mapping !! category device with
  | Some category =>
      match products category with
      | Some category_products =>
          match category_products !! product_id device with
          | Some product_mapping => product_mapping
          | None =>
              match category_mapping category with
              | Some default => default
              | None => []
              end
          end
      | None => []
      end
  | None => []
  end.

(** The resolver as the specification words it: the product's own list
    when the category is known and lists the product; else the category's
    default list when the category is known and has one; else nothing. *)
Definition resolve (table : gmap string TuyaBLECategorySelectMapping)
  (category product_id : string) : list TuyaBLESelectMapping :=
  match table !! category with
  | None => []
  | Some c =>
      match products c ≫= (.!! product_id) with
      | Some product_list => product_list
      | None => default [] (category_mapping c)
      end
  end.

(** ** The option adapter *)

(** [TuyaBLESelect]: the attributes its two operations read.  The device
    an entity belongs to is passed to the operations. *)
Record TuyaBLESelect : Type := {
  _mapping : TuyaBLESelectMapping;
  _attr_options : list string
}.

(** [TuyaBLESelect.__init__]. *)
Definition TuyaBLESelect_init (mapping : TuyaBLESelectMapping)
  : TuyaBLESelect :=
  {| _mapping := mapping;
     _attr_options := options (description mapping) |}.

(** [TuyaBLESelect.current_option], read against the datapoints of the
    entity's device. *)
Definition current_option (self : TuyaBLESelect)
  (device_datapoints : TuyaBLEDataPoints) : Py.result Py.object :=
  match datapoints_getitem device_datapoints (dp_id (_mapping self)) with
  | Some datapoint =>
      if datapoint_bool datapoint then
        let value := datapoint_value datapoint in
        if (value >=? 0) && (value <? Py.len (_attr_options self)) then
          match Py.getitem (_attr_options self) value with
          | Py.Ok option => Py.Ok (Py.Str option)
          | Py.Raise e => Py.Raise e
          end
        else Py.Ok (Py.Int value)
      else Py.Ok Py.None_
  | None => Py.Ok Py.None_
  end.

(** [TuyaBLESelect.select_option]. *)
Definition select_option (self : TuyaBLESelect) (value : string) : M unit :=
  if Py.contains value (_attr_options self) then
    int_value ← lift (Py.index (_attr_options self) value);
    datapoint ← get_or_create (dp_id (_mapping self)) DT_ENUM int_value;
    if datapoint_bool datapoint then
      create_task (set_value datapoint int_value)
    else mret tt
  else mret tt.

(** ** Setup *)

(** The test of the loop of [async_setup_entry]. *)
Definition included (device : TuyaBLEDevice)
  (mapping : TuyaBLESelectMapping) : bool :=
  force_add mapping
  || has_id (datapoints device) (dp_id mapping) (dp_type mapping).

(** The body of that loop: one binding is looked at, and an entity for
    it is appended or not. *)
Definition setup_step (device : TuyaBLEDevice)
  (entities : list TuyaBLESelect) (mapping : TuyaBLESelectMapping)
  : list TuyaBLESelect :=
  if included device mapping
  then entities ++ [TuyaBLESelect_init mapping]
  else entities.

(** [async_setup_entry]: the list handed to [async_add_entities], for the
    device [data.device] of the configuration entry.  The table read by
    [get_mapping_by_device] is the first argument. *)
Definition async_setup_entry
  (mapping : gmap string TuyaBLECategorySelectMapping)
  (device : TuyaBLEDevice) : list TuyaBLESelect :=
  let mappings := get_mapping_by_device mapping device in
  foldl (setup_step device) [] mappings.

(** The bindings of a table: those of some product list and those of
    some default list. *)
Inductive binding_of (table : gmap string TuyaBLECategorySelectMapping)
  (m : TuyaBLESelectMapping) : Prop :=
| binding_of_product c cat ps pid l :
    table !! cat = Some c → products c = Some ps →
    ps !! pid = Some l → m ∈ l → binding_of table m
| binding_of_default c cat l :
    table !! cat = Some c → category_mapping c = Some l →
    m ∈ l → binding_of table m.

(** The bindings of a category and of a table, listed. *)
Definition category_bindings (c : TuyaBLECategorySelectMapping)
  : list TuyaBLESelectMapping :=
  from_option (λ ps, mjoin (map_to_list ps).*2) [] (products c)
  ++ default [] (category_mapping c).

Definition table_bindings
  (table : gmap string TuyaBLECategorySelectMapping)
  : list TuyaBLESelectMapping :=
  mjoin (category_bindings <$> (map_to_list table).*2).

(** The product lists of a table, each with the category and product id
    it is stored under. *)
Definition table_entries
  (table : gmap string TuyaBLECategorySelectMapping)
  : list ((string * string) * list TuyaBLESelectMapping) :=
  '(cat, c) ← map_to_list table;
  '(pid, l) ← from_option map_to_list [] (products c);
  [((cat, pid), l)].

(** The category and product id pairs the table [mapping] is written
    for. *)
Definition supported_products : list (string * string) :=
  [ ("co2bj", "59s19z5m");
    ("ms", "ludzroix");
    ("szjqr", "3yqdo5yt"); ("szjqr", "xhf790if");
    ("szjqr", "blliqpsj"); ("szjqr", "yiihr7zh");
    ("szjqr", "ltak7e1p"); ("szjqr", "y6kttvd6"); ("szjqr", "yrnk7mnn");
    ("wsdcg", "ojzlzzsw");
    ("sfkzq", "1fcnd8xk") ].

(** ** Instances used in the examples *)

(** The binding of the smart lock ("ms", "ludzroix") in the table. *)
Definition beep_volume_mapping : TuyaBLESelectMapping :=
  TuyaBLESelectMapping_ 31
    {| key := "beep_volume";
       icon := None;
       entity_category := Some CONFIG;
       entity_registry_enabled_default := true;
       options := ["mute"; "low"; "normal"; "high"] |}.

(** The entity set up for it. *)
Definition beep_volume_select : TuyaBLESelect :=
  TuyaBLESelect_init beep_volume_mapping.

(** A device that has reported datapoint 31 as an enumeration holding
    [v]. *)
Definition lock_datapoints (v : Z) : TuyaBLEDataPoints :=
  {[ 31 := (DT_ENUM, v) ]}.

(** A binding like the one above, but only added when the device reports
    its datapoint. *)
Definition optional_mapping : TuyaBLESelectMapping :=
  {| dp_id := 31; description := description beep_volume_mapping;
     force_add := false; dp_type := Some DT_ENUM |}.

(** A table outside the shipped one: category "a" lists product "p" and
    has a default list, category "b" has a default list and no product
    table. *)
Definition example_table : gmap string TuyaBLECategorySelectMapping :=
  Py.dict [
    ("a", {| products := Some (Py.dict [("p", [beep_volume_mapping])]);
             category_mapping := Some [optional_mapping] |});
    ("b", {| products := None;
             category_mapping := Some [optional_mapping] |})
  ].

(** ** Facts about the Python primitives *)

Lemma contains_elem_of (value : string) (l : list string) :
  Py.contains value l = true ↔ value ∈ l.
Proof. unfold Py.contains. apply bool_decide_eq_true. Qed.

Lemma index_from_first (x : string) (l : list string) (k : Z) :
  x ∈ l →
  ∃ i : nat,
    Py.index_from x l k = Py.Ok (k + Z.of_nat i)
    ∧ l !! i = Some x
    ∧ ∀ j : nat, (j < i)%nat → l !! j ≠ Some x.
Proof.
  revert k. induction l as [|y l IH]; intros k Hin.
  - by apply elem_of_nil in Hin.
  - simpl. destruct (decide (y = x)) as [->|Hne].
    + exists 0%nat. split; [f_equal; lia|]. split; [done|]. lia.
    + apply elem_of_cons in Hin as [->|Hin]; [done|].
      destruct (IH (k + 1) Hin) as (i & Hidx & Hi & Hfirst).
      exists (S i). split; [rewrite Hidx; f_equal; lia|].
      split; [done|].
      intros [|j] Hj; simpl; [congruence|]. apply Hfirst. lia.
Qed.

Lemma index_first_occurrence (x : string) (l : list string) :
  x ∈ l →
  ∃ i : nat,
    Py.index l x = Py.Ok (Z.of_nat i)
    ∧ l !! i = Some x
    ∧ ∀ j : nat, (j < i)%nat → l !! j ≠ Some x.
Proof.
  intros Hin. destruct (index_from_first x l 0 Hin) as (i & Hidx & H).
  exists i. split; [|done]. unfold Py.index. rewrite Hidx. f_equal.
Qed.

Lemma getitem_in_range {A} (l : list A) (i : Z) :
  0 ≤ i < Py.len l →
  ∃ x, l !! Z.to_nat i = Some x ∧ Py.getitem l i = Py.Ok x.
Proof.
  intros [Hlo Hhi]. unfold Py.getitem.
  destruct (i <? 0) eqn:Hneg; [apply Z.ltb_lt in Hneg; lia|].
  assert ((0 <=? i) = true) as -> by by apply Z.leb_le.
  assert ((i <? Py.len l) = true) as -> by by apply Z.ltb_lt.
  simpl. unfold Py.len in Hhi.
  destruct (lookup_lt_is_Some_2 l (Z.to_nat i)) as [x Hx]; [lia|].
  exists x. by rewrite Hx.
Qed.

Example index_first : Py.index ["a"; "b"; "a"] "a" = Py.Ok 0.
Proof. reflexivity. Qed.

Example index_missing : Py.index ["a"; "b"] "c" = Py.Raise Py.ValueError.
Proof. reflexivity. Qed.

Example getitem_negative : Py.getitem ["a"; "b"; "c"] (-1) = Py.Ok "c".
Proof. reflexivity. Qed.

Example getitem_out_of_range :
  Py.getitem ["a"; "b"; "c"] 3 = Py.Raise Py.IndexError.
Proof. reflexivity. Qed.

Example dict_last_wins :
  Py.dict [("k", 1); ("k", 2)] !! "k" = Some 2.
Proof. reflexivity. Qed.

(** ** Reading: [current_option] *)

Lemma datapoints_getitem_Some (dps : TuyaBLEDataPoints) (id : Z)
  (type : TuyaBLEDataPointType) (v : Z) :
  dps !! id = Some (type, v) →
  datapoints_getitem dps id
  = Some {| datapoint_id := id; datapoint_type := type;
            datapoint_value := v |}.
Proof. intros H. unfold datapoints_getitem. by rewrite H. Qed.

Lemma datapoints_getitem_None (dps : TuyaBLEDataPoints) (id : Z) :
  dps !! id = None → datapoints_getitem dps id = None.
Proof. intros H. unfold datapoints_getitem. by rewrite H. Qed.

(** Outside the option list the raw integer comes back as it is, an
    [int], and nothing is raised. *)
Lemma current_option_out_of_range (self : TuyaBLESelect)
  (dps : TuyaBLEDataPoints) (type : TuyaBLEDataPointType) (v : Z) :
  dps !! dp_id (_mapping self) = Some (type, v) →
  v < 0 ∨ Py.len (_attr_options self) ≤ v →
  current_option self dps = Py.Ok (Py.Int v).
Proof.
  intros Hdp Hout. unfold current_option.
  rewrite (datapoints_getitem_Some _ _ _ _ Hdp). simpl.
  destruct (v >=? 0) eqn:Hge; [|done].
  destruct (v <? Py.len (_attr_options self)) eqn:Hlt; [|done].
  apply Z.geb_le in Hge. apply Z.ltb_lt in Hlt. lia.
Qed.

(** [current_option] raises nothing, whatever the device has cached. *)
Lemma current_option_total (self : TuyaBLESelect)
  (dps : TuyaBLEDataPoints) :
  ∃ o, current_option self dps = Py.Ok o.
Proof.
  unfold current_option.
  destruct (datapoints_getitem dps (dp_id (_mapping self))) as [dp|];
    [|by eauto].
  simpl. destruct (datapoint_value dp >=? 0) eqn:Hge; [|by eauto].
  destruct (datapoint_value dp <? Py.len (_attr_options self)) eqn:Hlt;
    [|by eauto].
  simpl. apply Z.geb_le in Hge. apply Z.ltb_lt in Hlt.
  destruct (getitem_in_range (_attr_options self) (datapoint_value dp))
    as (x & _ & ->); [lia|]. by eauto.
Qed.

(** C6: when the device has no datapoint under the bound id, reading
    [current_option] returns [None] and raises nothing. *)
Theorem current_option_absent (self : TuyaBLESelect)
  (dps : TuyaBLEDataPoints) :
  dps !! dp_id (_mapping self) = None →
  current_option self dps = Py.Ok Py.None_.
Proof.
  intros Hdp. unfold current_option.
  by rewrite (datapoints_getitem_None _ _ Hdp).
Qed.

(** A cached value that is a position of the option list is read as the
    option at that position. *)
Lemma current_option_at_position (self : TuyaBLESelect)
  (dps : TuyaBLEDataPoints) (type : TuyaBLEDataPointType) (i : nat)
  (s : string) :
  dps !! dp_id (_mapping self) = Some (type, Z.of_nat i) →
  _attr_options self !! i = Some s →
  current_option self dps = Py.Ok (Py.Str s).
Proof.
  intros Hdp Hs. unfold current_option.
  rewrite (datapoints_getitem_Some _ _ _ _ Hdp). simpl.
  pose proof (lookup_lt_Some _ _ _ Hs) as Hlt.
  assert (0 ≤ Z.of_nat i < Py.len (_attr_options self)) as Hv
    by (unfold Py.len; lia).
  assert ((Z.of_nat i >=? 0) = true) as -> by (apply Z.geb_le; lia).
  assert ((Z.of_nat i <? Py.len (_attr_options self)) = true) as ->
    by (apply Z.ltb_lt; lia).
  simpl. destruct (getitem_in_range (_attr_options self) (Z.of_nat i) Hv)
    as (s' & Hs' & ->).
  rewrite Nat2Z.id in Hs'. congruence.
Qed.

(** C3: when the bound datapoint is present with a raw value [v] such that
    [0 <= v < len(options)], reading [current_option] returns the option
    string at index [v] of the option list. *)
Theorem current_option_in_range (self : TuyaBLESelect)
  (dps : TuyaBLEDataPoints) (type : TuyaBLEDataPointType) (v : Z) :
  dps !! dp_id (_mapping self) = Some (type, v) →
  0 ≤ v < Py.len (_attr_options self) →
  ∃ s : string,
    _attr_options self !! Z.to_nat v = Some s
    ∧ current_option self dps = Py.Ok (Py.Str s).
Proof.
  intros Hdp Hv.
  destruct (lookup_lt_is_Some_2 (_attr_options self) (Z.to_nat v))
    as [s Hs]; [unfold Py.len in Hv; lia|].
  exists s. split; [done|].
  apply (current_option_at_position self dps type (Z.to_nat v)); [|done].
  by rewrite Z2Nat.id by lia.
Qed.

(** C2, on the code: with the options mute, low, normal, high and the
    raw value 9 cached for the bound datapoint, [current_option] returns
    the integer 9 itself, which is not the string "9". *)
Theorem current_option_raw_value_is_int :
  current_option beep_volume_select (lock_datapoints 9)
  = Py.Ok (Py.Int 9)
  ∧ Py.Int 9 ≠ Py.Str "9".
Proof. split; [reflexivity | discriminate]. Qed.

Example current_option_normal :
  current_option beep_volume_select (lock_datapoints 2)
  = Py.Ok (Py.Str "normal").
Proof. reflexivity. Qed.

Example current_option_negative :
  current_option beep_volume_select (lock_datapoints (-1))
  = Py.Ok (Py.Int (-1)).
Proof. reflexivity. Qed.

Example current_option_no_datapoint :
  current_option beep_volume_select ∅ = Py.Ok Py.None_.
Proof. reflexivity. Qed.

(** ** Writing: [select_option] *)

Lemma get_or_create_spec (id : Z) (type : TuyaBLEDataPointType)
  (value : Z) (st : State) :
  ∃ datapoint,
    datapoint_id datapoint = id
    ∧ get_or_create id type value st
      = Py.Ok (datapoint,
               {| device_datapoints :=
                    after_get_or_create (device_datapoints st) id type
                      value;
                  hass_tasks := hass_tasks st |}).
Proof.
  unfold get_or_create, datapoints_getitem, after_get_or_create.
  destruct (device_datapoints st !! id) as [[t v]|] eqn:Hdp.
  - eexists. split; [|destruct st; reflexivity]. done.
  - eexists. split; [|reflexivity]. done.
Qed.

(** What a call with a listed option does, for the position [i] that
    [index] finds. *)
Lemma select_option_at_index (self : TuyaBLESelect) (value : string)
  (i : Z) (st : State) :
  value ∈ _attr_options self →
  Py.index (_attr_options self) value = Py.Ok i →
  select_option self value st
  = Py.Ok (tt,
           {| device_datapoints :=
                after_get_or_create (device_datapoints st)
                  (dp_id (_mapping self)) DT_ENUM i;
              hass_tasks :=
                hass_tasks st
                ++ [set_value_coro (dp_id (_mapping self)) i] |}).
Proof.
  intros Hin Hidx. unfold select_option.
  apply contains_elem_of in Hin. rewrite Hin, Hidx.
  destruct (get_or_create_spec (dp_id (_mapping self)) DT_ENUM i st)
    as (dp & Hid & Hgoc).
  unfold mbind, M_bind, lift. rewrite Hgoc. simpl.
  unfold create_task, set_value. simpl. by rewrite Hid.
Qed.

Lemma select_option_first_position (self : TuyaBLESelect)
  (value : string) (st : State) :
  value ∈ _attr_options self →
  ∃ i : nat,
    _attr_options self !! i = Some value
    ∧ (∀ j : nat, (j < i)%nat → _attr_options self !! j ≠ Some value)
    ∧ select_option self value st
      = Py.Ok (tt,
               {| device_datapoints :=
                    after_get_or_create (device_datapoints st)
                      (dp_id (_mapping self)) DT_ENUM (Z.of_nat i);
                  hass_tasks :=
                    hass_tasks st
                    ++ [set_value_coro (dp_id (_mapping self))
                          (Z.of_nat i)] |}).
Proof.
  intros Hin.
  destruct (index_first_occurrence value (_attr_options self) Hin)
    as (i & Hidx & Hi & Hfirst).
  exists i. split; [done|]. split; [done|].
  by apply select_option_at_index.
Qed.

(** C4: for a string [value] of the option list, [select_option(value)]
    gets or creates the bound datapoint as a [DT_ENUM] datapoint and
    schedules exactly one write, of the (first) index of [value] in the
    option list, to the bound datapoint id. *)
Theorem select_option_member (self : TuyaBLESelect) (value : string)
  (st : State) :
  value ∈ _attr_options self →
  ∃ i : nat,
    _attr_options self !! i = Some value
    ∧ (∀ j : nat, (j < i)%nat → _attr_options self !! j ≠ Some value)
    ∧ select_option self value st
      = Py.Ok (tt,
               {| device_datapoints :=
                    after_get_or_create (device_datapoints st)
                      (dp_id (_mapping self)) DT_ENUM (Z.of_nat i);
                  hass_tasks :=
                    hass_tasks st
                    ++ [set_value_coro (dp_id (_mapping self))
                          (Z.of_nat i)] |}).
Proof. apply select_option_first_position. Qed.

(** C5: for a string [value] that is not in the option list,
    [select_option(value)] writes nothing, changes nothing and raises
    nothing. *)
Theorem select_option_not_member (self : TuyaBLESelect) (value : string)
  (st : State) :
  value ∉ _attr_options self →
  select_option self value st = Py.Ok (tt, st).
Proof.
  intros Hin. unfold select_option.
  destruct (Py.contains value (_attr_options self)) eqn:Hc; [|done].
  by apply contains_elem_of in Hc.
Qed.

(** C9: if [select_option(value)] is called with a string of the option
    list and the bound datapoint later caches the integer that call
    wrote, [current_option] returns [value]. *)
Theorem current_option_after_select_option (self : TuyaBLESelect)
  (value : string) (st st' : State) (id n : Z)
  (dps : TuyaBLEDataPoints) (type : TuyaBLEDataPointType) :
  value ∈ _attr_options self →
  select_option self value st = Py.Ok (tt, st') →
  hass_tasks st' = hass_tasks st ++ [set_value_coro id n] →
  dps !! dp_id (_mapping self) = Some (type, n) →
  current_option self dps = Py.Ok (Py.Str value).
Proof.
  intros Hin Hsel Htasks Hdp.
  destruct (select_option_first_position self value st Hin)
    as (i & Hi & _ & Hsel').
  rewrite Hsel' in Hsel. injection Hsel as <-. simpl in Htasks.
  apply app_inv_head in Htasks. injection Htasks as _ <-.
  by apply (current_option_at_position self dps type i).
Qed.

Example select_option_low :
  select_option beep_volume_select "low"
    {| device_datapoints := ∅; hass_tasks := [] |}
  = Py.Ok (tt, {| device_datapoints := lock_datapoints 1;
                  hass_tasks := [set_value_coro 31 1] |}).
Proof. reflexivity. Qed.

Example select_option_low_existing :
  select_option beep_volume_select "low"
    {| device_datapoints := lock_datapoints 3; hass_tasks := [] |}
  = Py.Ok (tt, {| device_datapoints := lock_datapoints 3;
                  hass_tasks := [set_value_coro 31 1] |}).
Proof. reflexivity. Qed.

Example select_option_unknown :
  select_option beep_volume_select "unknown"
    {| device_datapoints := lock_datapoints 3; hass_tasks := [] |}
  = Py.Ok (tt, {| device_datapoints := lock_datapoints 3;
                  hass_tasks := [] |}).
Proof. reflexivity. Qed.

(** ** Setup: which bindings get an entity *)

Lemma setup_loop (device : TuyaBLEDevice)
  (mappings : list TuyaBLESelectMapping)
  (entities : list TuyaBLESelect) :
  foldl (setup_step device) entities mappings
  = entities
    ++ (TuyaBLESelect_init <$> List.filter (included device) mappings).
Proof.
  revert entities.
  induction mappings as [|m mappings IH]; intros entities; simpl.
  - by rewrite app_nil_r.
  - rewrite IH. unfold setup_step.
    destruct (included device m); [|done].
    by rewrite <- app_assoc.
Qed.

Lemma async_setup_entry_filter
  (table : gmap string TuyaBLECategorySelectMapping)
  (device : TuyaBLEDevice) :
  async_setup_entry table device
  = TuyaBLESelect_init
    <$> List.filter (included device) (get_mapping_by_device table device).
Proof. unfold async_setup_entry. by rewrite setup_loop. Qed.

#[local] Instance TuyaBLESelect_init_inj : Inj (=) (=) TuyaBLESelect_init.
Proof. intros m1 m2 H. by injection H. Qed.

(** C7: for a binding resolved for the device, setup creates its entity
    if and only if the binding has [force_add] set or the device's
    datapoints report its id (with its type, when the binding names one). *)
Theorem async_setup_entry_includes
  (table : gmap string TuyaBLECategorySelectMapping)
  (device : TuyaBLEDevice) (m : TuyaBLESelectMapping) :
  m ∈ get_mapping_by_device table device →
  TuyaBLESelect_init m ∈ async_setup_entry table device
  ↔ force_add m = true
    ∨ has_id (datapoints device) (dp_id m) (dp_type m) = true.
Proof.
  intros Hm. rewrite async_setup_entry_filter.
  rewrite (list_elem_of_fmap_inj TuyaBLESelect_init).
  rewrite list_elem_of_In, filter_In, <- list_elem_of_In.
  unfold included. rewrite orb_true_iff. tauto.
Qed.

(** ** The resolver and the shipped table *)

Lemma binding_of_table_bindings
  (table : gmap string TuyaBLECategorySelectMapping)
  (m : TuyaBLESelectMapping) :
  binding_of table m ↔ m ∈ table_bindings table.
Proof.
  unfold table_bindings. rewrite list_elem_of_join. split.
  - intros [c cat ps pid l Hc Hps Hl Hm | c cat l Hc Hl Hm];
      exists (category_bindings c).
    + split.
      * unfold category_bindings. rewrite Hps. simpl.
        apply elem_of_app. left. apply list_elem_of_join. exists l.
        split; [done|]. apply list_elem_of_fmap. exists (pid, l).
        split; [done|]. by apply elem_of_map_to_list.
      * apply list_elem_of_fmap_2. apply list_elem_of_fmap.
        exists (cat, c). split; [done|]. by apply elem_of_map_to_list.
    + split.
      * unfold category_bindings. rewrite Hl. simpl.
        apply elem_of_app. by right.
      * apply list_elem_of_fmap_2. apply list_elem_of_fmap.
        exists (cat, c). split; [done|]. by apply elem_of_map_to_list.
  - intros (bs & Hm & Hbs).
    apply list_elem_of_fmap in Hbs as (c & -> & Hc).
    apply list_elem_of_fmap in Hc as ([cat c'] & -> & Hc).
    apply elem_of_map_to_list in Hc. simpl in Hm.
    unfold category_bindings in Hm. apply elem_of_app in Hm as [Hm|Hm].
    + destruct (products c') as [ps|] eqn:Hps; simpl in Hm;
        [|by apply elem_of_nil in Hm].
      apply list_elem_of_join in Hm as (l & Hm & Hl).
      apply list_elem_of_fmap in Hl as ([pid l'] & -> & Hl).
      apply elem_of_map_to_list in Hl.
      by eapply binding_of_product.
    + destruct (category_mapping c') as [l|] eqn:Hl; simpl in Hm;
        [|by apply elem_of_nil in Hm].
      by eapply binding_of_default.
Qed.

(** In the shipped table every category has a product table and no
    default list. *)
Lemma mapping_categories (cat : string)
  (c : TuyaBLECategorySelectMapping) :
  mapping !! cat = Some c →
  is_Some (products c) ∧ category_mapping c = None.
Proof.
  intros H. unfold mapping, Py.dict in H. cbn [foldl fst snd] in H.
  repeat (apply lookup_insert_Some in H as [[_ <-]|[_ H]];
          [by split; [eexists|]|]).
  by rewrite lookup_empty in H.
Qed.

(** The resolver follows the specification on every table whose
    categories without a product table have no default list either. *)
Lemma get_mapping_by_device_resolve
  (table : gmap string TuyaBLECategorySelectMapping)
  (device : TuyaBLEDevice) :
  (∀ cat c, table !! cat = Some c →
            products c = None → category_mapping c = None) →
  get_mapping_by_device table device
  = resolve table (category device) (product_id device).
Proof.
  intros Htable. unfold get_mapping_by_device, resolve.
  destruct (table !! category device) as [c|] eqn:Hc; [|done].
  destruct (products c) as [ps|] eqn:Hps; simpl.
  - destruct (ps !! product_id device); [done|].
    by destruct (category_mapping c).
  - by rewrite (Htable _ _ Hc Hps).
Qed.

(** C1: on the shipped table, for every category and product id of a
    device, [get_mapping_by_device] returns the product's own list when
    the category is known and lists the product, else the category's
    default list when the category is known and has one, else the empty
    list; it always returns a list. *)
Theorem get_mapping_by_device_resolves (device : TuyaBLEDevice) :
  get_mapping_by_device mapping device
  = resolve mapping (category device) (product_id device).
Proof.
  apply get_mapping_by_device_resolve. intros cat c Hc Hps.
  destruct (mapping_categories cat c Hc) as [[ps Hps'] _]. congruence.
Qed.

(** A resolved binding is a binding of the table. *)
Lemma get_mapping_by_device_binding_of
  (table : gmap string TuyaBLECategorySelectMapping)
  (device : TuyaBLEDevice) (m : TuyaBLESelectMapping) :
  m ∈ get_mapping_by_device table device → binding_of table m.
Proof.
  unfold get_mapping_by_device.
  destruct (table !! category device) as [c|] eqn:Hc;
    [|by intros ?%elem_of_nil].
  destruct (products c) as [ps|] eqn:Hps; [|by intros ?%elem_of_nil].
  destruct (ps !! product_id device) as [l|] eqn:Hl.
  - intros Hm. by eapply binding_of_product.
  - destruct (category_mapping c) as [l|] eqn:Hd;
      [|by intros ?%elem_of_nil].
    intros Hm. by eapply binding_of_default.
Qed.

Lemma mapping_bindings_Forall (P : TuyaBLESelectMapping → Prop) :
  Forall P (table_bindings mapping) →
  ∀ m, binding_of mapping m → P m.
Proof.
  intros HP m Hm. apply binding_of_table_bindings in Hm.
  by eapply Forall_forall in HP.
Qed.

Lemma mapping_force_add (m : TuyaBLESelectMapping) :
  binding_of mapping m → force_add m = true.
Proof.
  revert m. apply mapping_bindings_Forall.
  apply Forall_fmap with (f := force_add) (P := λ b, b = true).
  vm_compute. repeat constructor.
Qed.

Ltac solve_NoDup :=
  repeat match goal with
  | |- NoDup [] => apply NoDup_nil_2
  | |- NoDup (_ :: _) => apply NoDup_cons_2
  | |- _ ∉ [] => apply not_elem_of_nil
  | |- _ ∉ _ :: _ => apply not_elem_of_cons; split
  | |- _ ≠ _ => first [assumption | discriminate]
  end.

(** The option lists of the shipped table are the two written out in
    full, which have no duplicates, and the pairs of the two Fingerbot
    modes and of the two temperature units.  What the table itself gives
    is thus conditional: no option list repeats a string once the two
    modes are two strings and the two units are two strings. *)
Lemma mapping_options_NoDup (m : TuyaBLESelectMapping) :
  FINGERBOT_MODE_PUSH ≠ FINGERBOT_MODE_SWITCH →
  CELSIUS ≠ FAHRENHEIT →
  binding_of mapping m →
  NoDup (options (description m)).
Proof.
  intros Hmode Hunit. revert m. apply mapping_bindings_Forall.
  apply Forall_fmap with (f := λ m, options (description m)) (P := NoDup).
  vm_compute. repeat apply Forall_cons_2; [solve_NoDup..|apply Forall_nil_2].
Qed.

(** Both conditions of [mapping_options_NoDup] are needed: the table
    has a binding listing the two modes and one listing the two units. *)
Lemma mapping_options_NoDup_inv :
  (∀ m, binding_of mapping m → NoDup (options (description m))) →
  FINGERBOT_MODE_PUSH ≠ FINGERBOT_MODE_SWITCH ∧ CELSIUS ≠ FAHRENHEIT.
Proof.
  intros H. split.
  - assert (binding_of mapping (TuyaBLEFingerbotModeMapping 2)) as Hb.
    { apply binding_of_table_bindings. vm_compute.
      repeat first [apply list_elem_of_here | apply list_elem_of_further]. }
    apply H in Hb. simpl in Hb. apply NoDup_cons_1_1 in Hb.
    by intros ->; apply Hb, list_elem_of_here.
  - assert (binding_of mapping
              (TuyaBLESelectMapping_ 101
                 (TemperatureUnitDescription [CELSIUS; FAHRENHEIT] true)))
      as Hb.
    { apply binding_of_table_bindings. vm_compute.
      repeat first [apply list_elem_of_here | apply list_elem_of_further]. }
    apply H in Hb. simpl in Hb. apply NoDup_cons_1_1 in Hb.
    by intros ->; apply Hb, list_elem_of_here.
Qed.

(** C10: every binding of the shipped table has [force_add] at its
    default [True], and for every device setup creates an entity for each
    binding resolved for it, whatever datapoints the device reports. *)
Theorem async_setup_entry_adds_all :
  (∀ m, binding_of mapping m → force_add m = true)
  ∧ ∀ device : TuyaBLEDevice,
      async_setup_entry mapping device
      = TuyaBLESelect_init <$> get_mapping_by_device mapping device.
Proof.
  split; [apply mapping_force_add|].
  intros device. rewrite async_setup_entry_filter. f_equal.
  apply forallb_filter_id, forallb_forall. intros m Hm.
  apply list_elem_of_In, get_mapping_by_device_binding_of in Hm.
  unfold included. by rewrite (mapping_force_add m Hm).
Qed.

(** The resolver on a table with default lists: the product's own list
    replaces the default, an unlisted product gets the default, an unknown
    category gets nothing. *)
Example resolve_product_specific (dps : TuyaBLEDataPoints) :
  get_mapping_by_device example_table
    {| category := "a"; product_id := "p"; datapoints := dps |}
  = [beep_volume_mapping].
Proof. reflexivity. Qed.

Example resolve_default (dps : TuyaBLEDataPoints) :
  get_mapping_by_device example_table
    {| category := "a"; product_id := "q"; datapoints := dps |}
  = [optional_mapping].
Proof. reflexivity. Qed.

Example resolve_unknown_category (dps : TuyaBLEDataPoints) :
  get_mapping_by_device example_table
    {| category := "z"; product_id := "p"; datapoints := dps |}
  = [].
Proof. reflexivity. Qed.

(** Outside the shipped table: a category that has a default list but no
    product table at all resolves to nothing in the code. *)
Example resolve_no_product_table (dps : TuyaBLEDataPoints) :
  get_mapping_by_device example_table
    {| category := "b"; product_id := "p"; datapoints := dps |}
  = []
  ∧ resolve example_table "b" "p" = [optional_mapping].
Proof. split; reflexivity. Qed.

(** Setup on the example table: the default binding of category "a" is
    not forced, so it is added only for a device that reports datapoint 31
    as an enumeration. *)
Example setup_skips_unreported :
  async_setup_entry example_table
    {| category := "a"; product_id := "q"; datapoints := ∅ |}
  = [].
Proof. reflexivity. Qed.

Example setup_adds_reported :
  async_setup_entry example_table
    {| category := "a"; product_id := "q";
       datapoints := lock_datapoints 0 |}
  = [TuyaBLESelect_init optional_mapping].
Proof.
  vm_compute. by destruct (type_eq_dec DT_ENUM DT_ENUM).
Qed.

Example setup_adds_forced :
  async_setup_entry example_table
    {| category := "a"; product_id := "p"; datapoints := ∅ |}
  = [beep_volume_select].
Proof. reflexivity. Qed.

(** ** Further properties of [current_option] *)

(** The three ways a read can end, told apart by what the device has
    cached under the bound id. *)
Lemma current_option_cases (self : TuyaBLESelect)
  (dps : TuyaBLEDataPoints) :
  (dps !! dp_id (_mapping self) = None
   ∧ current_option self dps = Py.Ok Py.None_)
  ∨ (∃ type v s,
       dps !! dp_id (_mapping self) = Some (type, v)
       ∧ 0 ≤ v < Py.len (_attr_options self)
       ∧ _attr_options self !! Z.to_nat v = Some s
       ∧ current_option self dps = Py.Ok (Py.Str s))
  ∨ (∃ type v,
       dps !! dp_id (_mapping self) = Some (type, v)
       ∧ (v < 0 ∨ Py.len (_attr_options self) ≤ v)
       ∧ current_option self dps = Py.Ok (Py.Int v)).
Proof.
  destruct (dps !! dp_id (_mapping self)) as [[type v]|] eqn:Hdp.
  - right.
    destruct (decide (0 ≤ v < Py.len (_attr_options self))) as [Hv|Hv].
    + left.
      destruct (lookup_lt_is_Some_2 (_attr_options self) (Z.to_nat v))
        as [s Hs]; [unfold Py.len in Hv; lia|].
      exists type, v, s. repeat split; [lia..|done|].
      apply (current_option_at_position self dps type (Z.to_nat v));
        [|done].
      by rewrite Z2Nat.id by lia.
    + right. exists type, v. split; [done|].
      assert (v < 0 ∨ Py.len (_attr_options self) ≤ v) as Hout by lia.
      split; [done|]. by apply (current_option_out_of_range self dps type).
  - left. split; [done|]. unfold current_option.
    by rewrite (datapoints_getitem_None _ _ Hdp).
Qed.

(** X1: reading [current_option] never raises: the range test keeps the
    list subscription from raising [IndexError], whatever integer the
    device has cached. *)
Theorem current_option_never_raises (self : TuyaBLESelect)
  (dps : TuyaBLEDataPoints) (e : Py.exn) :
  current_option self dps ≠ Py.Raise e.
Proof.
  destruct (current_option_cases self dps)
    as [[_ ->]|[(?&?&?&_&_&_&->)|(?&?&_&_&->)]]; discriminate.
Qed.

(** X2: a string comes back from [current_option] only as the option at
    the cached index: the datapoint is there, its value is a position of
    the option list, and the string is the option at that position. *)
Theorem current_option_str_is_option (self : TuyaBLESelect)
  (dps : TuyaBLEDataPoints) (s : string) :
  current_option self dps = Py.Ok (Py.Str s) →
  ∃ type v,
    dps !! dp_id (_mapping self) = Some (type, v)
    ∧ 0 ≤ v < Py.len (_attr_options self)
    ∧ _attr_options self !! Z.to_nat v = Some s
    ∧ s ∈ _attr_options self.
Proof.
  intros H. destruct (current_option_cases self dps)
    as [[_ H']|[(type&v&s'&Hdp&Hv&Hs&H')|(?&?&_&_&H')]];
    rewrite H' in H; try discriminate.
  injection H as <-. exists type, v. repeat split; [done|lia..|done|].
  by eapply list_elem_of_lookup_2.
Qed.

(** X3: [current_option] is [None] exactly when the device has no
    datapoint under the bound id: a datapoint that is there never reads
    as [None], whatever it holds. *)
Theorem current_option_None_iff_absent (self : TuyaBLESelect)
  (dps : TuyaBLEDataPoints) :
  current_option self dps = Py.Ok Py.None_
  ↔ dps !! dp_id (_mapping self) = None.
Proof.
  destruct (current_option_cases self dps)
    as [[Hdp H]|[(?&?&?&Hdp&_&_&H)|(?&?&Hdp&_&H)]];
    rewrite H, Hdp; split; (done || discriminate).
Qed.

(** X4: [current_option] returns an integer [z] exactly when the bound
    datapoint is there holding [z] and [z] is no position of the option
    list ([z < 0] or [z >= len(options)]); a negative value is handed
    back, it does not count from the end of the list. *)
Theorem current_option_int_iff_out_of_range (self : TuyaBLESelect)
  (dps : TuyaBLEDataPoints) (z : Z) :
  current_option self dps = Py.Ok (Py.Int z)
  ↔ ∃ type,
      dps !! dp_id (_mapping self) = Some (type, z)
      ∧ (z < 0 ∨ Py.len (_attr_options self) ≤ z).
Proof.
  split.
  - intros H. destruct (current_option_cases self dps)
      as [[_ H']|[(?&?&?&_&_&_&H')|(type&v&Hdp&Hv&H')]];
      rewrite H' in H; try discriminate.
    injection H as <-. by exists type.
  - intros (type & Hdp & Hout).
    by apply (current_option_out_of_range self dps type).
Qed.

(** ** Further properties of [select_option] *)

(** The two ways a call can end: nothing happens, or the datapoint is got
    or created and one write of the first position of [value] is
    scheduled. *)
Lemma select_option_cases (self : TuyaBLESelect) (value : string)
  (st : State) :
  ((value ∉ _attr_options self)
   ∧ select_option self value st = Py.Ok (tt, st))
  ∨ (∃ i : nat,
       _attr_options self !! i = Some value
       ∧ select_option self value st
         = Py.Ok (tt,
                  {| device_datapoints :=
                       after_get_or_create (device_datapoints st)
                         (dp_id (_mapping self)) DT_ENUM (Z.of_nat i);
                     hass_tasks :=
                       hass_tasks st
                       ++ [set_value_coro (dp_id (_mapping self))
                             (Z.of_nat i)] |})).
Proof.
  destruct (decide (value ∈ _attr_options self)) as [Hin|Hout].
  - right.
    destruct (select_option_first_position self value st Hin)
      as (i & Hi & _ & Hsel).
    by exists i.
  - left. split; [done|]. unfold select_option.
    destruct (Py.contains value (_attr_options self)) eqn:Hc; [|done].
    by apply contains_elem_of in Hc.
Qed.

Lemma after_get_or_create_other (dps : TuyaBLEDataPoints) (id id' : Z)
  (type : TuyaBLEDataPointType) (value : Z) :
  id' ≠ id →
  after_get_or_create dps id type value !! id' = dps !! id'.
Proof.
  intros Hne. unfold after_get_or_create.
  destruct (dps !! id); [done|]. apply lookup_insert_ne. congruence.
Qed.

(** X5: [select_option] never raises: [index] is only reached for a
    string that is in the list, so its [ValueError] cannot occur. *)
Theorem select_option_never_raises (self : TuyaBLESelect)
  (value : string) (st : State) (e : Py.exn) :
  select_option self value st ≠ Py.Raise e.
Proof.
  destruct (select_option_cases self value st) as [[_ ->]|(i & _ & ->)];
    discriminate.
Qed.

(** X6: whatever [select_option] schedules is a write to the bound id of
    a valid position of the option list, the option at that position
    being the string selected; the tasks scheduled before stay, in order,
    and at most one is added. *)
Theorem select_option_schedules_valid_index (self : TuyaBLESelect)
  (value : string) (st st' : State) :
  select_option self value st = Py.Ok (tt, st') →
  ∃ new : list Coroutine,
    hass_tasks st' = hass_tasks st ++ new
    ∧ (length new ≤ 1)%nat
    ∧ ∀ id n, set_value_coro id n ∈ new →
        id = dp_id (_mapping self)
        ∧ 0 ≤ n < Py.len (_attr_options self)
        ∧ _attr_options self !! Z.to_nat n = Some value.
Proof.
  intros Hsel.
  destruct (select_option_cases self value st)
    as [[_ H]|(i & Hi & H)]; rewrite H in Hsel; injection Hsel as <-.
  - exists []. rewrite app_nil_r. split; [done|]. split; [simpl; lia|].
    by intros id n ?%elem_of_nil.
  - eexists. split; [reflexivity|]. split; [simpl; lia|].
    intros id n Hin. apply list_elem_of_singleton in Hin.
    injection Hin as -> ->. split; [done|].
    pose proof (lookup_lt_Some _ _ _ Hi). unfold Py.len.
    split; [lia|]. by rewrite Nat2Z.id.
Qed.

(** X7: [select_option] leaves every datapoint other than the bound one
    as it was. *)
Theorem select_option_other_datapoints (self : TuyaBLESelect)
  (value : string) (st st' : State) (id : Z) :
  select_option self value st = Py.Ok (tt, st') →
  id ≠ dp_id (_mapping self) →
  device_datapoints st' !! id = device_datapoints st !! id.
Proof.
  intros Hsel Hne.
  destruct (select_option_cases self value st)
    as [[_ H]|(i & Hi & H)]; rewrite H in Hsel; injection Hsel as <-;
    [done|].
  simpl. by apply after_get_or_create_other.
Qed.

(** X8: when the device already has the bound datapoint, [select_option]
    does not touch the collection: the cached value and type stay
    (whatever the type is), so [current_option] still reads what it read
    before the call; only the scheduled write can change it. *)
Theorem select_option_keeps_cached (self : TuyaBLESelect)
  (value : string) (st st' : State) :
  is_Some (device_datapoints st !! dp_id (_mapping self)) →
  select_option self value st = Py.Ok (tt, st') →
  device_datapoints st' = device_datapoints st
  ∧ current_option self (device_datapoints st')
    = current_option self (device_datapoints st).
Proof.
  intros [x Hx] Hsel.
  assert (device_datapoints st' = device_datapoints st) as Heq.
  { destruct (select_option_cases self value st)
      as [[_ H]|(i & Hi & H)]; rewrite H in Hsel; injection Hsel as <-;
      [done|].
    simpl. unfold after_get_or_create. by rewrite Hx. }
  by rewrite Heq.
Qed.

(** X9: when the device has no bound datapoint yet, selecting a listed
    string creates it as a [DT_ENUM] datapoint that already holds the
    index of the string, so [current_option] reads the selection at once,
    before the scheduled write has run. *)
Theorem select_option_creates_selected (self : TuyaBLESelect)
  (value : string) (st st' : State) :
  device_datapoints st !! dp_id (_mapping self) = None →
  value ∈ _attr_options self →
  select_option self value st = Py.Ok (tt, st') →
  (∃ i : nat,
     _attr_options self !! i = Some value
     ∧ device_datapoints st' !! dp_id (_mapping self)
       = Some (DT_ENUM, Z.of_nat i))
  ∧ current_option self (device_datapoints st') = Py.Ok (Py.Str value).
Proof.
  intros Hnone Hin Hsel.
  destruct (select_option_cases self value st)
    as [[Hout _]|(i & Hi & H)]; [done|].
  rewrite H in Hsel. injection Hsel as <-. simpl.
  assert (after_get_or_create (device_datapoints st)
            (dp_id (_mapping self)) DT_ENUM (Z.of_nat i)
          !! dp_id (_mapping self) = Some (DT_ENUM, Z.of_nat i)) as Hdp.
  { unfold after_get_or_create. rewrite Hnone.
    apply lookup_insert_eq. }
  split; [by exists i|].
  by apply (current_option_at_position self _ DT_ENUM i).
Qed.

(** X10: the integer written identifies the string selected: if selecting
    two listed strings schedules the same tasks, the strings are the
    same. *)
Theorem select_option_encoding_injective (self : TuyaBLESelect)
  (a b : string) (st sa sb : State) :
  a ∈ _attr_options self →
  b ∈ _attr_options self →
  select_option self a st = Py.Ok (tt, sa) →
  select_option self b st = Py.Ok (tt, sb) →
  hass_tasks sa = hass_tasks sb →
  a = b.
Proof.
  intros Ha Hb Hsa Hsb Htasks.
  destruct (select_option_cases self a st)
    as [[Hout _]|(i & Hi & H)]; [done|].
  rewrite H in Hsa. injection Hsa as <-.
  destruct (select_option_cases self b st)
    as [[Hout _]|(j & Hj & H')]; [done|].
  rewrite H' in Hsb. injection Hsb as <-.
  simpl in Htasks. apply app_inv_head in Htasks.
  injection Htasks as Hij. apply Nat2Z.inj in Hij. congruence.
Qed.

(** X11: when the options are pairwise distinct, writing back what was
    read writes the cached value: if [current_option] returns the string
    [s] for the cached value [v], then [select_option(s)] schedules the
    write of [v]. *)
Theorem select_option_after_current_option (self : TuyaBLESelect)
  (dps : TuyaBLEDataPoints) (type : TuyaBLEDataPointType) (v : Z)
  (s : string) (st : State) :
  NoDup (_attr_options self) →
  dps !! dp_id (_mapping self) = Some (type, v) →
  current_option self dps = Py.Ok (Py.Str s) →
  ∃ st',
    select_option self s st = Py.Ok (tt, st')
    ∧ hass_tasks st'
      = hass_tasks st ++ [set_value_coro (dp_id (_mapping self)) v].
Proof.
  intros Hnodup Hdp Hread.
  destruct (current_option_cases self dps)
    as [[_ H]|[(type'&v'&s'&Hdp'&Hv&Hs&H)|(?&?&_&_&H)]];
    rewrite H in Hread; try discriminate.
  injection Hread as ->. rewrite Hdp in Hdp'. injection Hdp' as _ <-.
  destruct (select_option_cases self s st) as [[Hout _]|(i & Hi & Hsel)].
  - destruct Hout. by eapply list_elem_of_lookup_2.
  - eexists. split; [exact Hsel|]. simpl.
    rewrite (NoDup_lookup _ _ _ _ Hnodup Hi Hs).
    by rewrite Z2Nat.id by lia.
Qed.

(** Without distinct options the write goes to the first position of the
    string, not to the one that was read. *)
Example select_option_after_current_option_duplicates :
  let self := {| _mapping := beep_volume_mapping;
                 _attr_options := ["on"; "on"] |} in
  current_option self (lock_datapoints 1) = Py.Ok (Py.Str "on")
  ∧ select_option self "on"
      {| device_datapoints := lock_datapoints 1; hass_tasks := [] |}
    = Py.Ok (tt, {| device_datapoints := lock_datapoints 1;
                    hass_tasks := [set_value_coro 31 0] |}).
Proof. split; reflexivity. Qed.

(** X12: two selections in a row, of listed strings [a] and then [b]:
    both writes are scheduled, in call order, after the tasks that were
    there; the collection is what the first call left, so a datapoint the
    first call created keeps the index of [a] until the writes run. *)
Theorem select_option_twice (self : TuyaBLESelect) (a b : string)
  (st : State) :
  a ∈ _attr_options self →
  b ∈ _attr_options self →
  ∃ i j : nat,
    _attr_options self !! i = Some a
    ∧ _attr_options self !! j = Some b
    ∧ (select_option self a ≫= λ _, select_option self b) st
      = Py.Ok (tt,
               {| device_datapoints :=
                    after_get_or_create (device_datapoints st)
                      (dp_id (_mapping self)) DT_ENUM (Z.of_nat i);
                  hass_tasks :=
                    hass_tasks st
                    ++ [set_value_coro (dp_id (_mapping self))
                          (Z.of_nat i);
                        set_value_coro (dp_id (_mapping self))
                          (Z.of_nat j)] |}).
Proof.
  intros Ha Hb.
  destruct (select_option_cases self a st)
    as [[Hout _]|(i & Hi & Hsa)]; [done|].
  set (st1 := {| device_datapoints :=
                   after_get_or_create (device_datapoints st)
                     (dp_id (_mapping self)) DT_ENUM (Z.of_nat i);
                 hass_tasks :=
                   hass_tasks st
                   ++ [set_value_coro (dp_id (_mapping self))
                         (Z.of_nat i)] |}) in *.
  destruct (select_option_cases self b st1)
    as [[Hout _]|(j & Hj & Hsb)]; [done|].
  exists i, j. split; [done|]. split; [done|].
  unfold mbind, M_bind. rewrite Hsa, Hsb. simpl. f_equal. f_equal.
  f_equal.
  - unfold after_get_or_create at 1.
    destruct (after_get_or_create (device_datapoints st)
                (dp_id (_mapping self)) DT_ENUM (Z.of_nat i)
              !! dp_id (_mapping self)) eqn:Hdp; [done|].
    unfold after_get_or_create in Hdp.
    destruct (device_datapoints st !! dp_id (_mapping self)) eqn:Hdp0;
      [congruence|].
    unfold TuyaBLEDataPoints in *. by rewrite lookup_insert_eq in Hdp.
  - by rewrite <- app_assoc.
Qed.

(** ** Further properties of setup *)

Lemma filter_sublist {A} (f : A → bool) (l : list A) :
  sublist (List.filter f l) l.
Proof.
  induction l as [|x l IH]; simpl; [constructor|].
  destruct (f x); by constructor.
Qed.

Lemma mapping_of_init (l : list TuyaBLESelectMapping) :
  _mapping <$> (TuyaBLESelect_init <$> l) = l.
Proof. induction l as [|m l IH]; [done|]. rewrite !fmap_cons. by rewrite IH. Qed.

(** X13: the entities set up are made from resolved bindings only, in the
    order of the resolved list (their bindings are a sublist of it), and
    each entity's option list is the one of its binding's description. *)
Theorem async_setup_entry_sublist
  (table : gmap string TuyaBLECategorySelectMapping)
  (device : TuyaBLEDevice) :
  sublist (_mapping <$> async_setup_entry table device)
    (get_mapping_by_device table device)
  ∧ Forall (λ e, _attr_options e = options (description (_mapping e)))
      (async_setup_entry table device).
Proof.
  rewrite async_setup_entry_filter. split.
  - rewrite mapping_of_init. apply filter_sublist.
  - apply Forall_fmap, Forall_forall. by intros m _.
Qed.

(** X14: a device whose category is not in the table gets no entity, and
    neither does one whose category has no product table, even when that
    category has a default list and whatever the bindings force. *)
Theorem async_setup_entry_no_product_table
  (table : gmap string TuyaBLECategorySelectMapping)
  (device : TuyaBLEDevice) :
  table !! category device = None
  ∨ (∃ c, table !! category device = Some c ∧ products c = None) →
  get_mapping_by_device table device = []
  ∧ async_setup_entry table device = [].
Proof.
  intros H.
  assert (get_mapping_by_device table device = []) as Hres.
  { unfold get_mapping_by_device.
    destruct H as [->|(c & -> & ->)]; done. }
  split; [done|]. unfold async_setup_entry. by rewrite Hres.
Qed.

(** ** The devices the shipped table serves *)

Lemma table_entries_lookup
  (table : gmap string TuyaBLECategorySelectMapping)
  (cat pid : string) (l : list TuyaBLESelectMapping) :
  ((cat, pid), l) ∈ table_entries table
  ↔ ∃ c ps,
      table !! cat = Some c ∧ products c = Some ps ∧ ps !! pid = Some l.
Proof.
  unfold table_entries. rewrite list_elem_of_bind. split.
  - intros ([cat' c] & Hin & Hc). apply elem_of_map_to_list in Hc.
    apply list_elem_of_bind in Hin as ([pid' l'] & Hin & Hl).
    apply list_elem_of_singleton in Hin. injection Hin as -> -> ->.
    destruct (products c) as [ps|] eqn:Hps; simpl in Hl;
      [|by apply elem_of_nil in Hl].
    apply elem_of_map_to_list in Hl. by exists c, ps.
  - intros (c & ps & Hc & Hps & Hl). exists (cat, c).
    split; [|by apply elem_of_map_to_list].
    apply list_elem_of_bind. exists (pid, l).
    split; [by apply list_elem_of_singleton|].
    rewrite Hps. simpl. by apply elem_of_map_to_list.
Qed.

Lemma async_setup_entry_mapping (device : TuyaBLEDevice) :
  async_setup_entry mapping device
  = TuyaBLESelect_init <$> get_mapping_by_device mapping device.
Proof.
  rewrite async_setup_entry_filter. f_equal.
  apply forallb_filter_id, forallb_forall. intros m Hm.
  apply list_elem_of_In, get_mapping_by_device_binding_of in Hm.
  unfold included. by rewrite (mapping_force_add m Hm).
Qed.

Lemma mapping_entries_supported :
  Forall (λ e, e.1 ∈ supported_products ∧ length e.2 = 1%nat)
    (table_entries mapping).
Proof.
  assert (forallb (λ e, bool_decide (e.1 ∈ supported_products)
                        && (length e.2 =? 1)%nat)
            (table_entries mapping) = true) as H
    by (vm_compute; reflexivity).
  apply Forall_forall. intros e He.
  apply list_elem_of_In in He.
  apply (proj1 (forallb_forall _ _) H) in He.
  apply andb_true_iff in He as [He1 He2].
  split; [by apply bool_decide_eq_true in He1|by apply Nat.eqb_eq].
Qed.

Lemma supported_mapping_entries :
  Forall (λ k, k ∈ (table_entries mapping).*1) supported_products.
Proof.
  assert (forallb (λ k, bool_decide (k ∈ (table_entries mapping).*1))
            supported_products = true) as H
    by (vm_compute; reflexivity).
  apply Forall_forall. intros k Hk.
  apply list_elem_of_In in Hk.
  apply (proj1 (forallb_forall _ _) H) in Hk.
  by apply bool_decide_eq_true in Hk.
Qed.

(** X15: on the shipped table a device gets exactly one select entity
    when its category and product id are one of the eleven pairs the
    table is written for, and none otherwise, whatever datapoints it
    reports. *)
Theorem async_setup_entry_supported (device : TuyaBLEDevice) :
  length (async_setup_entry mapping device)
  = if bool_decide ((category device, product_id device)
                     ∈ supported_products)
    then 1%nat else 0%nat.
Proof.
  rewrite async_setup_entry_mapping, length_fmap.
  assert (∀ l, ((category device, product_id device), l)
               ∈ table_entries mapping →
               (category device, product_id device) ∈ supported_products
               ∧ length l = 1%nat) as Hin.
  { intros l Hl.
    by apply (proj1 (Forall_forall _ _) mapping_entries_supported _ Hl). }
  assert ((category device, product_id device) ∈ supported_products →
          ∃ l, ((category device, product_id device), l)
               ∈ table_entries mapping) as Hsup.
  { intros Hk.
    apply (proj1 (Forall_forall _ _) supported_mapping_entries) in Hk.
    apply list_elem_of_fmap in Hk as ([k l] & -> & Hk). by exists l. }
  unfold get_mapping_by_device.
  destruct (mapping !! category device) as [c|] eqn:Hc.
  - destruct (mapping_categories _ _ Hc) as [[ps Hps] Hdef].
    rewrite Hps. destruct (ps !! product_id device) as [l|] eqn:Hl.
    + destruct (Hin l) as [Hk Hlen].
      { apply table_entries_lookup. by exists c, ps. }
      by rewrite bool_decide_eq_true_2.
    + rewrite Hdef. rewrite bool_decide_eq_false_2; [done|].
      intros (l & Hl')%Hsup.
      apply table_entries_lookup in Hl' as (c' & ps' & ? & ? & ?).
      congruence.
  - rewrite bool_decide_eq_false_2; [done|].
    intros (l & Hl')%Hsup.
    apply table_entries_lookup in Hl' as (c' & ps' & ? & ? & ?).
    congruence.
Qed.

(** ** The resolver against the documented order, on any table *)

(** X16: on any table, [get_mapping_by_device] departs from the order
    "product list, else default list, else nothing" in one case only: the
    category is in the table with a non-empty default list but without a
    product table; the code then returns the empty list. *)
Theorem get_mapping_by_device_differs_iff
  (table : gmap string TuyaBLECategorySelectMapping)
  (device : TuyaBLEDevice) :
  get_mapping_by_device table device
  ≠ resolve table (category device) (product_id device)
  ↔ get_mapping_by_device table device = []
    ∧ ∃ c l,
        table !! category device = Some c
        ∧ products c = None
        ∧ category_mapping c = Some l
        ∧ l ≠ [].
Proof.
  unfold get_mapping_by_device, resolve.
  destruct (table !! category device) as [c|] eqn:Hc.
  - destruct (products c) as [ps|] eqn:Hps; simpl.
    + split.
      * intros Hne. destruct Hne.
        destruct (ps !! product_id device); [done|].
        by destruct (category_mapping c).
      * intros (_ & c' & l & Hc' & Hps' & _).
        injection Hc' as <-. congruence.
    + destruct (category_mapping c) as [l|] eqn:Hl; simpl.
      * split.
        -- intros Hne. split; [done|]. exists c, l.
           split; [done|]. split; [done|]. split; [done|].
           intros ->. by apply Hne.
        -- intros (_ & c' & l' & Hc' & _ & Hl' & Hne) Heq.
           injection Hc' as <-. congruence.
      * split; [done|]. intros (_ & c' & l' & Hc' & _ & Hl' & _).
        injection Hc' as <-. rewrite Hl in Hl'. done.
  - split; [done|]. by intros (_ & c & l & ? & _).
Qed.

End select.

(** ** Closed instances

    The theorems above, applied to the smart lock's entity, with the
    type tags of [Concrete] and the strings "push", "switch", "°C" and
    "°F" for the four constants. *)

Local Abbreviation DT_ENUM := Concrete.DT_ENUM.
Local Abbreviation lock := (@beep_volume_select Concrete.TuyaBLEDataPointType).
Local Abbreviation shipped :=
  (@mapping Concrete.TuyaBLEDataPointType "push" "switch" "°C" "°F").

Lemma current_option_absent_witness :
  (∅ : gmap Z (Concrete.TuyaBLEDataPointType * Z))
    !! dp_id (_mapping lock) = None
  ∧ current_option lock ∅ = Py.Ok Py.None_.
Proof.
  split; [reflexivity|].
  apply (current_option_absent lock ∅). reflexivity.
Defined.

Lemma current_option_in_range_witness :
  lock_datapoints DT_ENUM 2 !! dp_id (_mapping lock) = Some (DT_ENUM, 2)
  ∧ 0 ≤ 2 < Py.len (_attr_options lock)
  ∧ ∃ s : string,
      _attr_options lock !! Z.to_nat 2 = Some s
      ∧ current_option lock (lock_datapoints DT_ENUM 2)
        = Py.Ok (Py.Str s).
Proof.
  split; [reflexivity|]. split; [vm_compute; split; congruence|].
  apply (current_option_in_range lock (lock_datapoints DT_ENUM 2)
           DT_ENUM 2); [reflexivity|].
  vm_compute. split; congruence.
Defined.

Lemma select_option_member_witness :
  "low" ∈ _attr_options lock
  ∧ ∃ i : nat,
      _attr_options lock !! i = Some "low"
      ∧ (∀ j : nat, (j < i)%nat → _attr_options lock !! j ≠ Some "low")
      ∧ select_option DT_ENUM lock "low"
          {| device_datapoints := ∅; hass_tasks := [] |}
        = Py.Ok (tt,
                 {| device_datapoints :=
                      after_get_or_create ∅ (dp_id (_mapping lock))
                        DT_ENUM (Z.of_nat i);
                    hass_tasks :=
                      [] ++ [set_value_coro (dp_id (_mapping lock))
                               (Z.of_nat i)] |}).
Proof.
  assert ("low" ∈ _attr_options lock) as Hin
    by (apply list_elem_of_further, list_elem_of_here).
  split; [exact Hin|].
  exact (select_option_member DT_ENUM lock "low"
           {| device_datapoints := ∅; hass_tasks := [] |} Hin).
Defined.

Lemma select_option_not_member_witness :
  ("unknown" ∉ _attr_options lock)
  ∧ select_option DT_ENUM lock "unknown"
      {| device_datapoints := lock_datapoints DT_ENUM 3;
         hass_tasks := [] |}
    = Py.Ok (tt, {| device_datapoints := lock_datapoints DT_ENUM 3;
                    hass_tasks := [] |}).
Proof.
  assert ("unknown" ∉ _attr_options lock) as Hout
    by (apply (bool_decide_unpack _); vm_compute; exact I).
  split; [exact Hout|].
  exact (select_option_not_member DT_ENUM lock "unknown" _ Hout).
Defined.

Lemma current_option_after_select_option_witness :
  current_option lock (lock_datapoints DT_ENUM 1)
  = Py.Ok (Py.Str "low").
Proof.
  apply (current_option_after_select_option DT_ENUM lock "low"
           {| device_datapoints := ∅; hass_tasks := [] |}
           {| device_datapoints := lock_datapoints DT_ENUM 1;
              hass_tasks := [set_value_coro 31 1] |}
           31 1 (lock_datapoints DT_ENUM 1) DT_ENUM).
  - apply list_elem_of_further, list_elem_of_here.
  - reflexivity.
  - reflexivity.
  - reflexivity.
Defined.

Lemma async_setup_entry_includes_witness :
  optional_mapping DT_ENUM
    ∈ get_mapping_by_device (example_table DT_ENUM)
        {| category := "a"; product_id := "q"; datapoints := ∅ |}
  ∧ (TuyaBLESelect_init (optional_mapping DT_ENUM)
       ∈ async_setup_entry (example_table DT_ENUM)
           {| category := "a"; product_id := "q"; datapoints := ∅ |}
     ↔ force_add (optional_mapping DT_ENUM) = true
       ∨ has_id ∅ (dp_id (optional_mapping DT_ENUM))
           (dp_type (optional_mapping DT_ENUM)) = true).
Proof.
  assert (optional_mapping DT_ENUM
            ∈ get_mapping_by_device (example_table DT_ENUM)
                {| category := "a"; product_id := "q"; datapoints := ∅ |})
    as Hm by apply list_elem_of_here.
  split; [exact Hm|].
  exact (async_setup_entry_includes (example_table DT_ENUM)
           {| category := "a"; product_id := "q"; datapoints := ∅ |}
           (optional_mapping DT_ENUM) Hm).
Defined.

Lemma lock_binding_of_shipped :
  binding_of shipped (@beep_volume_mapping Concrete.TuyaBLEDataPointType).
Proof.
  apply binding_of_table_bindings. vm_compute.
  repeat first [apply list_elem_of_here | apply list_elem_of_further].
Qed.

Lemma async_setup_entry_adds_all_witness :
  force_add (@beep_volume_mapping Concrete.TuyaBLEDataPointType) = true
  ∧ async_setup_entry shipped
      {| category := "ms"; product_id := "ludzroix"; datapoints := ∅ |}
    = [lock].
Proof.
  destruct (@async_setup_entry_adds_all Concrete.TuyaBLEDataPointType _
              "push" "switch" "°C" "°F") as [Hforce Hall].
  split; [exact (Hforce _ lock_binding_of_shipped)|].
  rewrite Hall. reflexivity.
Defined.

(** Instances of the further properties, on the smart lock's entity. *)

#[local] Existing Instance M_bind.

Lemma current_option_str_is_option_witness :
  ∃ type v,
    lock_datapoints DT_ENUM 2 !! dp_id (_mapping lock) = Some (type, v)
    ∧ 0 ≤ v < Py.len (_attr_options lock)
    ∧ _attr_options lock !! Z.to_nat v = Some "normal"
    ∧ "normal" ∈ _attr_options lock.
Proof.
  apply (current_option_str_is_option lock (lock_datapoints DT_ENUM 2)
           "normal").
  reflexivity.
Defined.

Lemma select_option_schedules_valid_index_witness :
  ∃ new : list Coroutine,
    [set_value_coro 31 3] = [] ++ new
    ∧ (length new ≤ 1)%nat
    ∧ ∀ id n, set_value_coro id n ∈ new →
        id = dp_id (_mapping lock)
        ∧ 0 ≤ n < Py.len (_attr_options lock)
        ∧ _attr_options lock !! Z.to_nat n = Some "high".
Proof.
  apply (select_option_schedules_valid_index DT_ENUM lock "high"
           {| device_datapoints := lock_datapoints DT_ENUM 0;
              hass_tasks := [] |}
           {| device_datapoints := lock_datapoints DT_ENUM 0;
              hass_tasks := [set_value_coro 31 3] |}).
  reflexivity.
Defined.

Lemma select_option_other_datapoints_witness :
  device_datapoints
    {| device_datapoints :=
         <[31 := (DT_ENUM, 0)]> {[ 47 := (DT_ENUM, 5) ]};
       hass_tasks := [set_value_coro 31 0] |} !! 47
  = device_datapoints
      {| device_datapoints := {[ 47 := (DT_ENUM, 5) ]};
         hass_tasks := [] |} !! 47.
Proof.
  apply (select_option_other_datapoints DT_ENUM lock "mute"
           {| device_datapoints := {[ 47 := (DT_ENUM, 5) ]};
              hass_tasks := [] |}
           {| device_datapoints :=
                <[31 := (DT_ENUM, 0)]> {[ 47 := (DT_ENUM, 5) ]};
              hass_tasks := [set_value_coro 31 0] |}
           47).
  - reflexivity.
  - discriminate.
Defined.

Lemma select_option_keeps_cached_witness :
  lock_datapoints Concrete.DT_VALUE 3 = lock_datapoints Concrete.DT_VALUE 3
  ∧ current_option lock (lock_datapoints Concrete.DT_VALUE 3)
    = current_option lock (lock_datapoints Concrete.DT_VALUE 3).
Proof.
  apply (select_option_keeps_cached DT_ENUM lock "low"
           {| device_datapoints := lock_datapoints Concrete.DT_VALUE 3;
              hass_tasks := [] |}
           {| device_datapoints := lock_datapoints Concrete.DT_VALUE 3;
              hass_tasks := [set_value_coro 31 1] |}).
  - eexists. reflexivity.
  - reflexivity.
Defined.

Lemma select_option_creates_selected_witness :
  (∃ i : nat,
     _attr_options lock !! i = Some "normal"
     ∧ lock_datapoints DT_ENUM 2 !! dp_id (_mapping lock)
       = Some (DT_ENUM, Z.of_nat i))
  ∧ current_option lock (lock_datapoints DT_ENUM 2)
    = Py.Ok (Py.Str "normal").
Proof.
  apply (select_option_creates_selected DT_ENUM lock "normal"
           {| device_datapoints := ∅; hass_tasks := [] |}
           {| device_datapoints := lock_datapoints DT_ENUM 2;
              hass_tasks := [set_value_coro 31 2] |}).
  - reflexivity.
  - do 2 apply list_elem_of_further. apply list_elem_of_here.
  - reflexivity.
Defined.

Lemma select_option_encoding_injective_witness : "low" = "low".
Proof.
  apply (select_option_encoding_injective DT_ENUM lock "low" "low"
           {| device_datapoints := ∅; hass_tasks := [] |}
           {| device_datapoints := lock_datapoints DT_ENUM 1;
              hass_tasks := [set_value_coro 31 1] |}
           {| device_datapoints := lock_datapoints DT_ENUM 1;
              hass_tasks := [set_value_coro 31 1] |}).
  - apply list_elem_of_further, list_elem_of_here.
  - apply list_elem_of_further, list_elem_of_here.
  - reflexivity.
  - reflexivity.
  - reflexivity.
Defined.

Lemma lock_options_NoDup : NoDup (_attr_options lock).
Proof.
  apply (bool_decide_unpack _). vm_compute. exact I.
Qed.

Lemma select_option_after_current_option_witness :
  ∃ st',
    select_option DT_ENUM lock "high"
      {| device_datapoints := lock_datapoints DT_ENUM 3;
         hass_tasks := [] |}
    = Py.Ok (tt, st')
    ∧ hass_tasks st' = [] ++ [set_value_coro (dp_id (_mapping lock)) 3].
Proof.
  apply (select_option_after_current_option DT_ENUM lock
           (lock_datapoints DT_ENUM 3) DT_ENUM 3 "high"
           {| device_datapoints := lock_datapoints DT_ENUM 3;
              hass_tasks := [] |}).
  - exact lock_options_NoDup.
  - reflexivity.
  - reflexivity.
Defined.

Lemma select_option_twice_witness :
  ∃ i j : nat,
    _attr_options lock !! i = Some "low"
    ∧ _attr_options lock !! j = Some "high"
    ∧ (select_option DT_ENUM lock "low"
         ≫= λ _, select_option DT_ENUM lock "high")
        {| device_datapoints := ∅; hass_tasks := [] |}
      = Py.Ok (tt,
               {| device_datapoints :=
                    after_get_or_create ∅ (dp_id (_mapping lock)) DT_ENUM
                      (Z.of_nat i);
                  hass_tasks :=
                    [] ++ [set_value_coro (dp_id (_mapping lock))
                             (Z.of_nat i);
                           set_value_coro (dp_id (_mapping lock))
                             (Z.of_nat j)] |}).
Proof.
  apply (select_option_twice DT_ENUM lock "low" "high"
           {| device_datapoints := ∅; hass_tasks := [] |}).
  - apply list_elem_of_further, list_elem_of_here.
  - do 3 apply list_elem_of_further. apply list_elem_of_here.
Defined.

Lemma async_setup_entry_no_product_table_witness :
  get_mapping_by_device (example_table DT_ENUM)
    {| category := "b"; product_id := "p";
       datapoints := lock_datapoints DT_ENUM 0 |} = []
  ∧ async_setup_entry (example_table DT_ENUM)
      {| category := "b"; product_id := "p";
         datapoints := lock_datapoints DT_ENUM 0 |} = [].
Proof.
  apply (async_setup_entry_no_product_table (example_table DT_ENUM)
           {| category := "b"; product_id := "p";
              datapoints := lock_datapoints DT_ENUM 0 |}).
  right. eexists. split; reflexivity.
Defined.
